(** * Authentication core of the contacts REST backend

    A shallow embedding of [src/services/auth.py] (password hashing, JWT
    issuance and resolution) and of the [/login] and [/request_email]
    handlers of [src/api/auth.py], with the properties of the
    specification stated over it.

    Conventions.
    - A Python [dict] with string keys is a [gmap string value].
    - A Python exception is a value of [exn]; a function that may raise
      returns a [result].  [try ... except JWTError] is [try_except_JWTError].
    - [datetime.now(UTC)] is an explicit clock reading in whole seconds
      since the epoch ([Z]): python-jose stores time claims as such
      integers ([timegm(utctimetuple())]), and every [timedelta] the code
      adds is a whole number of seconds.
    - The Redis store and FastAPI's [BackgroundTasks] are passed and
      returned explicitly.
    - python-jose, passlib, [json.dumps] and the user service are
      collaborators outside the repository's auth code; they are
      interfaces here ([JoseJWT], [CryptContext], [UserService]). *)

From stdpp Require Import gmap strings list fin_maps pretty.
From Stdlib Require Import ZArith Lia.

Local Open Scope Z_scope.
Local Open Scope string_scope.

(** ** Python values and exceptions *)

(** The values the auth code stores in claim sets and cache snapshots. *)
Inductive value : Type :=
| VNone
| VBool (b : bool)
| VInt (n : Z)
| VStr (s : string)
| VDatetime (t : Z).

#[global] Instance value_eq_dec : EqDecision value.
Proof. solve_decision. Defined.

(** [jose.JWTError] and the two subclasses [jwt.decode] raises. *)
Inductive jwt_error : Type :=
| JWTError_base
| ExpiredSignatureError
| JWTClaimsError.

Inductive exn : Type :=
| JWTError (kind : jwt_error)
| HTTPException (status_code : Z) (detail : string)
    (headers : list (string * string))
| KeyError (key : string)
| AttributeError (msg : string)
| UnknownHashError
| MalformedHashError.

#[global] Instance jwt_error_eq_dec : EqDecision jwt_error.
Proof. solve_decision. Defined.

#[global] Instance exn_eq_dec : EqDecision exn.
Proof. solve_decision. Defined.

Inductive result (A : Type) : Type :=
| Return (a : A)
| Raise (e : exn).

Arguments Return {A} a.
Arguments Raise {A} e.

#[global] Instance result_ret : MRet result := fun A a => Return a.

#[global] Instance result_bind : MBind result := fun A B f m =>
  match m with
  | Return a => f a
  | Raise e => Raise e
  end.

(** [try: body except JWTError: handler]: only a [JWTError] (or a
    subclass) is caught; every other exception leaves the block. *)
Definition try_except_JWTError {A : Type} (body handler : result A) : result A :=
  match body with
  | Raise (JWTError _) => handler
  | r => r
  end.

(** [d[key]] on a dict: [KeyError] when the key is absent. *)
Definition getitem (d : gmap string value) (key : string) : result value :=
  match d !! key with
  | Some v => Return v
  | None => Raise (KeyError key)
  end.

(** Python truthiness of an optional integer ([if expires_delta:]) and
    of a nullable boolean column ([if user.confirmed:]). *)
Definition truthy_int (n : option Z) : bool :=
  match n with
  | Some k => negb (k =? 0)%Z
  | None => false
  end.

Definition truthy_bool (b : option bool) : bool :=
  match b with
  | Some true => true
  | _ => false
  end.

(** HTTP status codes of [fastapi.status] used by the handlers. *)
Definition HTTP_401_UNAUTHORIZED : Z := 401.
Definition HTTP_422_UNPROCESSABLE_ENTITY : Z := 422.

(** ** Settings ([src/conf/config.py]) *)

Record Settings : Type := {
  JWT_SECRET : string;
  JWT_ALGORITHM : string;
  JWT_EXPIRATION_SECONDS : Z
}.

(** The defaults of the class body; [JWT_SECRET] has none and comes from
    the environment. *)
Definition Settings_defaults (secret : string) : Settings :=
  {| JWT_SECRET := secret;
     JWT_ALGORITHM := "HS256";
     JWT_EXPIRATION_SECONDS := 3600 |}.

(** ** python-jose: [jwt.encode] and [jwt.decode] *)

(** [jwt.encode] turns a [datetime] under one of the time claims into
    integer seconds before serialising. *)
Definition intdate (v : value) : value :=
  match v with
  | VDatetime t => VInt t
  | _ => v
  end.

Definition to_intdate (claims : gmap string value) : gmap string value :=
  alter intdate "nbf" (alter intdate "iat" (alter intdate "exp" claims)).

(** The claim sets the repository issues: a string subject, and time
    claims [exp] and [iat]; nothing else. *)
Definition is_time (v : value) : bool :=
  match v with
  | VInt _ | VDatetime _ => true
  | _ => false
  end.

Definition is_str (v : value) : bool :=
  match v with
  | VStr _ => true
  | _ => false
  end.

Definition claim_ok (key : string) (v : value) : bool :=
  if decide (key = "sub") then is_str v
  else if decide (key = "exp") then is_time v
  else if decide (key = "iat") then is_time v
  else false.

Definition issued_claims (claims : gmap string value) : Prop :=
  map_Forall (fun key v => claim_ok key v = true) claims.

(** [_validate_exp] with the default leeway of 0: a token whose [exp]
    lies strictly before the clock reading has expired. *)
Definition expired (now : Z) (claims : gmap string value) : bool :=
  match claims !! "exp" with
  | Some (VInt e) => (e <? now)%Z
  | _ => false
  end.

(** The codec as the auth code uses it.  [token] is the compact string
    form, which the repository never inspects.  [jwt_decode] receives the
    clock reading [jwt.decode] takes itself; it either raises a
    [JWTError] or returns the claim set.  [jwt_encode] is total: the
    configured algorithm is taken to be one the library supports. *)
Class JoseJWT (token : Type) : Type := {
  jwt_encode : gmap string value -> string -> string -> token;
  jwt_decode : token -> string -> list string -> Z ->
               jwt_error + gmap string value
}.

(** The library's contract on tokens it issued itself, for the claim
    sets above: decoding under the signing key and algorithm gives the
    claims back (time claims as integers) unless the token has expired. *)
Class JoseJWTLaws (token : Type) `{!JoseJWT token} : Prop := {
  jwt_decode_encode :
    forall (claims : gmap string value) (key alg : string) (now : Z),
      issued_claims claims ->
      jwt_decode (jwt_encode claims key alg) key [alg] now =
        if expired now (to_intdate claims) then inl ExpiredSignatureError
        else inr (to_intdate claims)
}.

(** [jwt.decode] lifted to [result]: the error is a raised [JWTError]. *)
Definition jwt_decode_r {token : Type} `{!JoseJWT token}
    (t : token) (key : string) (algorithms : list string) (now : Z)
  : result (gmap string value) :=
  match jwt_decode t key algorithms now with
  | inl e => Raise (JWTError e)
  | inr claims => Return claims
  end.

(** ** passlib: [CryptContext(schemes=["bcrypt"], deprecated="auto")] *)

(** What the context is made of: [ctx_identify] tells whether a stored
    string carries the identifier of the configured scheme,
    [ctx_scheme_verify] is the scheme's own check of a secret against an
    identified hash (it may still raise on a string that does not parse),
    and [ctx_scheme_hash] is the scheme's hash under the salt drawn for
    the call. *)
Class CryptContext : Type := {
  ctx_identify : string -> bool;
  ctx_scheme_verify : string -> string -> result bool;
  ctx_scheme_hash : string -> string -> string
}.

(** [CryptContext.verify(secret, hash)]: a hash no configured scheme
    identifies is an [UnknownHashError]. *)
Definition pwd_context_verify `{!CryptContext} (secret hash : string)
  : result bool :=
  if ctx_identify hash then ctx_scheme_verify secret hash
  else Raise UnknownHashError.

Definition pwd_context_hash `{!CryptContext} (salt secret : string) : string :=
  ctx_scheme_hash salt secret.

(** ** [class Hash] ([src/services/auth.py]) *)

Module Hash.

Definition verify_password `{!CryptContext}
    (plain_password hashed_password : string) : result bool :=
  pwd_context_verify plain_password hashed_password.

(** The salt is passlib's random draw, made explicit. *)
Definition get_password_hash `{!CryptContext} (salt password : string)
  : string :=
  pwd_context_hash salt password.

End Hash.

(** ** Users *)

(** The columns of the user entity the auth code reads.  [confirmed] is
    nullable (migration [dd5b5737a78c]). *)
Module User.

Record t : Type := mk {
  id : Z;
  username : string;
  email : string;
  hashed_password : string;
  confirmed : option bool;
  avatar : option string
}.

End User.

(** Modelled from the spec: [src/services/users.py] ([UserService]) is
    not among the sources.  Section 6 gives its lookups as
    [get_by_username(string) -> User?] and [get_by_email(string) -> User?].
    The argument is the Python value the caller passes: the subject of a
    decoded token is handed over as it is. *)
Record UserService : Type := {
  get_user_by_username : value -> option User.t;
  get_user_by_email : value -> option User.t
}.

(** ** Request and response shapes *)

Module OAuth2PasswordRequestForm.

Record t : Type := mk {
  username : string;
  password : string
}.

End OAuth2PasswordRequestForm.

(** A Redis string key: its value and its time to live in seconds. *)
Record redis_entry : Type := {
  r_value : string;
  r_ttl : option Z
}.

#[global] Instance redis_entry_eq_dec : EqDecision redis_entry.
Proof. solve_decision. Defined.

(** [SET key value] replaces the entry and drops any time to live. *)
Definition redis_set (key v : string) (store : gmap string redis_entry)
  : gmap string redis_entry :=
  <[key := {| r_value := v; r_ttl := None |}]> store.

(** [EXPIRE key seconds] sets the time to live of an existing key. *)
Definition redis_expire (key : string) (seconds : Z)
    (store : gmap string redis_entry) : gmap string redis_entry :=
  alter (fun e => {| r_value := r_value e; r_ttl := Some seconds |}) key store.

(** A call queued with [background_tasks.add_task(send_email, ...)]. *)
Record task : Type := send_email {
  task_email : string;
  task_username : string;
  task_host : string
}.

Definition add_task (background_tasks : list task) (t : task) : list task :=
  background_tasks ++ [t].

Definition of_option_bool (b : option bool) : value :=
  match b with
  | Some b => VBool b
  | None => VNone
  end.

Definition of_option_str (s : option string) : value :=
  match s with
  | Some s => VStr s
  | None => VNone
  end.

(** [user.confirmed] where [user] may be [None]. *)
Definition getattr_confirmed (user : option User.t) : result (option bool) :=
  match user with
  | Some u => Return (User.confirmed u)
  | None =>
      Raise (AttributeError "'NoneType' object has no attribute 'confirmed'")
  end.

(** ** [src/services/auth.py] and [src/api/auth.py] *)

Section Auth.

Context {token : Type} `{!JoseJWT token} `{!CryptContext}.

(** [from src.conf.config import settings] *)
Variable settings : Settings.

(** [json.dumps] on the snapshot dict, whose keys keep their order. *)
Variable json_dumps : list (string * value) -> string.

(** [create_access_token(data, expires_delta=None)], with the reading
    [now] of [datetime.now(UTC)]. *)
Definition create_access_token (now : Z) (data : gmap string value)
    (expires_delta : option Z) : token :=
  let to_encode := data in
  let expire :=
    if truthy_int expires_delta
    then now + default 0 expires_delta
    else now + JWT_EXPIRATION_SECONDS settings in
  let to_encode := <["exp" := VDatetime expire]> to_encode in
  let encoded_jwt :=
    jwt_encode to_encode (JWT_SECRET settings) (JWT_ALGORITHM settings) in
  encoded_jwt.

Definition credentials_exception : exn :=
  HTTPException HTTP_401_UNAUTHORIZED "Could not validate credentials"
    [("WWW-Authenticate", "Bearer")].

(** [get_current_user(token, db)]; [now] is the clock [jwt.decode]
    reads, [user_service] is [UserService(db)]. *)
Definition get_current_user (now : Z) (t : token) (user_service : UserService)
  : result User.t :=
  username ←
    try_except_JWTError
      (payload ← jwt_decode_r t (JWT_SECRET settings)
                   [JWT_ALGORITHM settings] now;
       username ← getitem payload "sub";
       if decide (username = VNone) then Raise credentials_exception
       else Return username)
      (Raise credentials_exception);
  let user := get_user_by_username user_service username in
  match user with
  | None => Raise credentials_exception
  | Some user => Return user
  end.

(** [create_email_token(data)]: [now_exp] and [now_iat] are its two
    successive clock readings. *)
Definition create_email_token (now_exp now_iat : Z)
    (data : gmap string value) : token :=
  let to_encode := data in
  let expire := now_exp + 7 * 86400 in
  let to_encode :=
    <["exp" := VDatetime expire]> (<["iat" := VDatetime now_iat]> to_encode) in
  jwt_encode to_encode (JWT_SECRET settings) (JWT_ALGORITHM settings).

Definition email_token_exception : exn :=
  HTTPException HTTP_422_UNPROCESSABLE_ENTITY
    "Неправильний токен для перевірки електронної пошти" [].

(** [get_email_from_token(token)] *)
Definition get_email_from_token (now : Z) (t : token) : result value :=
  try_except_JWTError
    (payload ← jwt_decode_r t (JWT_SECRET settings)
                 [JWT_ALGORITHM settings] now;
     email ← getitem payload "sub";
     Return email)
    (Raise email_token_exception).

(** The body of the [/login] response. *)
Record TokenResponse : Type := {
  access_token : token;
  token_type : string
}.

Definition invalid_login_exception : exn :=
  HTTPException HTTP_401_UNAUTHORIZED "Неправильний логін або пароль"
    [("WWW-Authenticate", "Bearer")].

Definition unconfirmed_exception : exn :=
  HTTPException HTTP_401_UNAUTHORIZED "Електронна адреса не підтверджена" [].

(** The snapshot dict [user_data] of [login_user]. *)
Definition user_data (user : User.t) : list (string * value) :=
  [ ("id", VInt (User.id user));
    ("username", VStr (User.username user));
    ("email", VStr (User.email user));
    ("confirmed", of_option_bool (User.confirmed user));
    ("avatar", of_option_str (User.avatar user)) ].

(** [login_user(form_data, db, redis)]: the response or exception, and
    the Redis store it leaves. *)
Definition login_user (now : Z) (form_data : OAuth2PasswordRequestForm.t)
    (user_service : UserService) (redis : gmap string redis_entry)
  : result TokenResponse * gmap string redis_entry :=
  let user :=
    get_user_by_username user_service
      (VStr (OAuth2PasswordRequestForm.username form_data)) in
  match user with
  | None => (Raise invalid_login_exception, redis)
  | Some user =>
      match Hash.verify_password
              (OAuth2PasswordRequestForm.password form_data)
              (User.hashed_password user) with
      | Raise e => (Raise e, redis)
      | Return false => (Raise invalid_login_exception, redis)
      | Return true =>
          if negb (truthy_bool (User.confirmed user))
          then (Raise unconfirmed_exception, redis)
          else
            let access_token :=
              create_access_token now
                {[ "sub" := VStr (User.username user) ]} None in
            let key := "user:" +:+ User.username user in
            let redis := redis_set key (json_dumps (user_data user)) redis in
            let redis := redis_expire key 3600 redis in
            (Return {| access_token := access_token;
                       token_type := "bearer" |}, redis)
      end
  end.

Definition already_confirmed_message : gmap string value :=
  {[ "message" := VStr "Ваша електронна пошта вже підтверджена" ]}.

Definition check_email_message : gmap string value :=
  {[ "message" := VStr "Перевірте свою електронну пошту для підтвердження" ]}.

(** [request_email(body, background_tasks, request, db)]: the response
    or exception, and the queue of background tasks it leaves. *)
Definition request_email (body_email : string) (background_tasks : list task)
    (base_url : string) (user_service : UserService)
  : result (gmap string value) * list task :=
  let user := get_user_by_email user_service (VStr body_email) in
  match getattr_confirmed user with
  | Raise e => (Raise e, background_tasks)
  | Return confirmed =>
      if truthy_bool confirmed
      then (Return already_confirmed_message, background_tasks)
      else
        let background_tasks :=
          match user with
          | Some u =>
              add_task background_tasks
                (send_email (User.email u) (User.username u) base_url)
          | None => background_tasks
          end in
        (Return check_email_message, background_tasks)
  end.

End Auth.

Arguments access_token {token} _.
Arguments token_type {token} _.

(** ** Reference instances of the interfaces

    Executable instances, on which the statements below are evaluated at
    concrete inputs. *)

(** A symbolic token: either a string that is no token at all, or a
    claim set sealed under an algorithm and a key. *)
Inductive sym_token : Type :=
| Garbage (s : string)
| Sealed (alg key : string) (claims : gmap string value).

(** The registered-claim checks of [jwt.decode] that the issued claim
    sets can meet: a subject must be a string, an expiry an integer not
    in the past. *)
Definition sym_validate (now : Z) (claims : gmap string value)
  : option jwt_error :=
  match claims !! "sub" with
  | Some (VStr _) | None =>
      match claims !! "exp" with
      | None => None
      | Some (VInt e) => if (e <? now)%Z then Some ExpiredSignatureError else None
      | Some _ => Some JWTClaimsError
      end
  | Some _ => Some JWTClaimsError
  end.

Definition sym_encode (claims : gmap string value) (key alg : string)
  : sym_token :=
  Sealed alg key (to_intdate claims).

Definition sym_decode (t : sym_token) (key : string)
    (algorithms : list string) (now : Z) : jwt_error + gmap string value :=
  match t with
  | Garbage _ => inl JWTError_base
  | Sealed alg k claims =>
      if decide (k = key /\ alg ∈ algorithms)
      then match sym_validate now claims with
           | Some e => inl e
           | None => inr claims
           end
      else inl JWTError_base
  end.

#[global] Instance sym_jose : JoseJWT sym_token := {|
  jwt_encode := sym_encode;
  jwt_decode := sym_decode
|}.

(** A context whose scheme is recognised by the bcrypt identifier
    ["$2b$"]; its stand-in digest keeps salt and secret readable, which
    is all the statements below need of it. *)
Definition ref_identify (hash : string) : bool :=
  String.prefix "$2b$" hash.

Definition ref_hash (salt secret : string) : string :=
  "$2b$12$" +:+ salt +:+ "$" +:+ secret.

Definition ref_salt (hash : string) : string :=
  String.substring 7 22 hash.

Definition ref_verify (secret hash : string) : result bool :=
  if decide (String.length hash <= 29)%nat then Raise MalformedHashError
  else Return (bool_decide (hash = ref_hash (ref_salt hash) secret)).

#[global] Instance ref_context : CryptContext := {|
  ctx_identify := ref_identify;
  ctx_scheme_verify := ref_verify;
  ctx_scheme_hash := ref_hash
|}.

(** Modelled from the spec: a user service over a table of users, with
    the two lookups of section 6 ([get_by_username], [get_by_email]); a
    value that is not a string matches no row. *)
Definition table_service (users : list User.t) : UserService := {|
  get_user_by_username v :=
    match v with
    | VStr s => List.find (fun u => bool_decide (User.username u = s)) users
    | _ => None
    end;
  get_user_by_email v :=
    match v with
    | VStr s => List.find (fun u => bool_decide (User.email u = s)) users
    | _ => None
    end
|}.

(** A rendering of the value in place of [json.dumps], for evaluation. *)
Definition ref_dumps_value (v : value) : string :=
  match v with
  | VNone => "null"
  | VBool true => "true"
  | VBool false => "false"
  | VInt n => pretty n
  | VStr s => "'" +:+ s +:+ "'"
  | VDatetime t => pretty t
  end.

Definition ref_dumps (d : list (string * value)) : string :=
  "{" +:+ String.concat ", "
            (List.map (fun kv => "'" +:+ kv.1 +:+ "': " +:+ ref_dumps_value kv.2) d)
      +:+ "}".

(** Sample data. *)
Definition alice : User.t :=
  User.mk 1 "alice" "alice@x.com" (ref_hash "saltsaltsaltsaltsaltsa" "pw123")
    (Some true) None.

Definition bob : User.t :=
  User.mk 2 "bob" "bob@x.com" (ref_hash "pepperpepperpepperpepp" "hunter2")
    (Some false) None.

(** A user whose username is an email address. *)
Definition carol : User.t :=
  User.mk 3 "carol@x.com" "carol@x.com"
    (ref_hash "saltsaltsaltsaltsaltsa" "qwerty") (Some true) None.

Definition sample_settings : Settings := Settings_defaults "s3cret".

Definition sample_users : UserService := table_service [alice; bob; carol].

(** ** The handlers that write to the database ([src/api/auth.py]) *)

Definition HTTP_400_BAD_REQUEST : Z := 400.
Definition HTTP_409_CONFLICT : Z := 409.

(** The body of [/register] ([schemas.UserCreate]), by the fields the
    handler reads. *)
Module UserCreate.

Record t : Type := mk {
  username : string;
  email : string;
  password : string
}.

End UserCreate.

(** Modelled from the spec: the writes of [UserService]
    ([src/services/users.py] is not among the sources).  Section 6 gives
    them as [create(Credentials+profile) -> User] and
    [set_confirmed(email)].  [db] is the state of the database, and the
    lookups in a state are a [UserService]. *)
Record UserStore (db : Type) : Type := {
  store_service : db -> UserService;
  store_create_user : UserCreate.t -> db -> User.t * db;
  store_confirmed_email : value -> db -> db
}.

Arguments store_service {db} _ _.
Arguments store_create_user {db} _ _ _.
Arguments store_confirmed_email {db} _ _ _.

(** Modelled from the spec: what [set_confirmed] is for.  After it, the
    user found under the address is still found and is confirmed. *)
Class UserStoreLaws {db : Type} (store : UserStore db) : Prop := {
  store_confirmed_email_lookup :
    forall (d : db) (email : value) (user : User.t),
      get_user_by_email (store_service store d) email = Some user ->
      exists user',
        get_user_by_email
          (store_service store (store_confirmed_email store email d)) email
          = Some user'
        /\ User.confirmed user' = Some true
}.

Section Writes.

Context {token : Type} `{!JoseJWT token} `{!CryptContext}.
Context {db : Type} (store : UserStore db).

Variable settings : Settings.

Definition email_conflict_exception : exn :=
  HTTPException HTTP_409_CONFLICT "Користувач з таким email вже існує" [].

Definition username_conflict_exception : exn :=
  HTTPException HTTP_409_CONFLICT "Користувач з таким іменем вже існує" [].

(** [register_user(user_data, background_tasks, request, db)]: the
    response or exception, the queue of background tasks and the
    database it leaves.  [salt] is the draw of the password hash. *)
Definition register_user (salt : string) (user_data : UserCreate.t)
    (background_tasks : list task) (base_url : string) (d : db)
  : result User.t * list task * db :=
  let user_service := store_service store d in
  let email_user :=
    get_user_by_email user_service (VStr (UserCreate.email user_data)) in
  match email_user with
  | Some _ => (Raise email_conflict_exception, background_tasks, d)
  | None =>
      let username_user :=
        get_user_by_username user_service
          (VStr (UserCreate.username user_data)) in
      match username_user with
      | Some _ => (Raise username_conflict_exception, background_tasks, d)
      | None =>
          let user_data :=
            UserCreate.mk (UserCreate.username user_data)
              (UserCreate.email user_data)
              (Hash.get_password_hash salt (UserCreate.password user_data)) in
          let '(new_user, d) := store_create_user store user_data d in
          let background_tasks :=
            add_task background_tasks
              (send_email (User.email new_user) (User.username new_user)
                 base_url) in
          (Return new_user, background_tasks, d)
      end
  end.

Definition verification_error_exception : exn :=
  HTTPException HTTP_400_BAD_REQUEST "Verification error" [].

Definition already_confirmed_exception : exn :=
  HTTPException HTTP_400_BAD_REQUEST
    "Ваша електронна пошта вже підтверджена" [].

Definition email_confirmed_message : gmap string value :=
  {[ "message" := VStr "Електронну пошту підтверджено" ]}.

(** [confirmed_email(token, db)]: the response or exception, and the
    database it leaves. *)
Definition confirmed_email (now : Z) (t : token) (d : db)
  : result (gmap string value) * db :=
  match get_email_from_token settings now t with
  | Raise e => (Raise e, d)
  | Return email =>
      let user_service := store_service store d in
      let user := get_user_by_email user_service email in
      match user with
      | None => (Raise verification_error_exception, d)
      | Some user =>
          if truthy_bool (User.confirmed user)
          then (Raise already_confirmed_exception, d)
          else
            let d := store_confirmed_email store email d in
            (Return email_confirmed_message, d)
      end
  end.

End Writes.

(** Modelled from the spec: a store over a table of users.  A created
    user gets the next id, is not confirmed and has no avatar;
    [set_confirmed] marks every row of the address. *)
Definition table_create_user (user_data : UserCreate.t) (users : list User.t)
  : User.t * list User.t :=
  let user :=
    User.mk (1 + Z.of_nat (length users)) (UserCreate.username user_data)
      (UserCreate.email user_data) (UserCreate.password user_data)
      (Some false) None in
  (user, (users ++ [user])%list).

Definition table_confirmed_email (email : value) (users : list User.t)
  : list User.t :=
  List.map
    (fun u =>
       if decide (email = VStr (User.email u))
       then User.mk (User.id u) (User.username u) (User.email u)
              (User.hashed_password u) (Some true) (User.avatar u)
       else u)
    users.

Definition table_store : UserStore (list User.t) := {|
  store_service := table_service;
  store_create_user := table_create_user;
  store_confirmed_email := table_confirmed_email
|}.

(** ** The migration [dd5b5737a78c] ([alembic/versions]) *)

Inductive sa_type : Type :=
| Boolean
| OtherType (name : string).

Record Column : Type := {
  column_type : sa_type;
  nullable : bool
}.

Inductive migration_error : Type :=
| NoSuchTable (table : string)
| DuplicateColumn (table column : string)
| NoSuchColumn (table column : string).

(** [op.add_column(table, Column(name, ...))] and
    [op.drop_column(table, name)] on a schema: the columns of each
    table, by name. *)
Definition op_add_column (table name : string) (c : Column)
    (schema : gmap string (gmap string Column))
  : migration_error + gmap string (gmap string Column) :=
  match schema !! table with
  | None => inl (NoSuchTable table)
  | Some columns =>
      match columns !! name with
      | Some _ => inl (DuplicateColumn table name)
      | None => inr (<[table := <[name := c]> columns]> schema)
      end
  end.

Definition op_drop_column (table name : string)
    (schema : gmap string (gmap string Column))
  : migration_error + gmap string (gmap string Column) :=
  match schema !! table with
  | None => inl (NoSuchTable table)
  | Some columns =>
      match columns !! name with
      | None => inl (NoSuchColumn table name)
      | Some _ => inr (<[table := delete name columns]> schema)
      end
  end.

Definition upgrade (schema : gmap string (gmap string Column))
  : migration_error + gmap string (gmap string Column) :=
  op_add_column "users" "confirmed"
    {| column_type := Boolean; nullable := true |} schema.

Definition downgrade (schema : gmap string (gmap string Column))
  : migration_error + gmap string (gmap string Column) :=
  op_drop_column "users" "confirmed" schema.

(** More sample data: a user whose stored password was never hashed, a
    registration form, and a schema before the migration. *)
Definition dave : User.t :=
  User.mk 4 "dave" "dave@x.com" "hunter2" (Some true) None.

Definition sample_table : list User.t := [alice; bob; carol].

Definition erin_form : UserCreate.t :=
  UserCreate.mk "erin" "erin@x.com" "correct horse".

Definition sample_schema : gmap string (gmap string Column) :=
  {[ "users" :=
       {[ "id" := {| column_type := OtherType "Integer"; nullable := false |};
          "username" :=
            {| column_type := OtherType "String"; nullable := true |} ]};
     "contacts" :=
       {[ "id" := {| column_type := OtherType "Integer"; nullable := false |} ]} ]}.

(** What an HTTP client sees of an exception: the status of an
    [HTTPException]; anything else is an unhandled error. *)
Definition http_status (e : exn) : option Z :=
  match e with
  | HTTPException status_code _ _ => Some status_code
  | _ => None
  end.

(** A call is rejected when it raises. *)
Definition rejected {A : Type} (r : result A) : Prop :=
  exists e, r = Raise e.

(** The lifetime [create_access_token] gives a token: the one asked
    for when it is truthy, the configured default otherwise. *)
Definition lifetime (settings : Settings) (expires_delta : option Z) : Z :=
  if truthy_int expires_delta then default 0 expires_delta
  else JWT_EXPIRATION_SECONDS settings.

(** * Properties *)

(** ** Claim sets and the codec *)

Lemma to_intdate_lookup_sub (claims : gmap string value) :
  to_intdate claims !! "sub" = claims !! "sub".
Proof.
  unfold to_intdate.
  rewrite !lookup_alter_ne by discriminate.
  reflexivity.
Qed.

Lemma to_intdate_lookup_exp (claims : gmap string value) :
  to_intdate claims !! "exp" = intdate <$> claims !! "exp".
Proof.
  unfold to_intdate.
  rewrite !lookup_alter_ne by discriminate.
  apply lookup_alter_eq.
Qed.

Lemma issued_claims_sub (claims : gmap string value) (v : value) :
  issued_claims claims -> claims !! "sub" = Some v -> exists s, v = VStr s.
Proof.
  intros Hc Hv. specialize (Hc _ _ Hv). cbn in Hc.
  destruct v; try discriminate. eauto.
Qed.

Lemma issued_claims_exp (claims : gmap string value) (v : value) :
  issued_claims claims -> claims !! "exp" = Some v -> exists e, intdate v = VInt e.
Proof.
  intros Hc Hv. specialize (Hc _ _ Hv). cbn in Hc.
  destruct v; try discriminate; cbn; eauto.
Qed.

Lemma issued_claims_insert (claims : gmap string value) (key : string) (v : value) :
  claim_ok key v = true -> issued_claims claims ->
  issued_claims (<[key := v]> claims).
Proof.
  intros Hv Hc. unfold issued_claims. apply map_Forall_insert_2; assumption.
Qed.

Lemma issued_claims_subject (s : string) :
  issued_claims {[ "sub" := VStr s ]}.
Proof.
  unfold issued_claims. apply map_Forall_singleton. reflexivity.
Qed.

(** On an issued claim set the symbolic checks reduce to the expiry
    test. *)
Lemma sym_validate_issued (now : Z) (claims : gmap string value) :
  issued_claims claims ->
  sym_validate now (to_intdate claims) =
    if expired now (to_intdate claims) then Some ExpiredSignatureError else None.
Proof.
  intros Hc. unfold sym_validate, expired.
  rewrite to_intdate_lookup_sub, to_intdate_lookup_exp.
  destruct (claims !! "sub") as [v|] eqn:Hsub.
  - destruct (issued_claims_sub _ _ Hc Hsub) as [s ->].
    destruct (claims !! "exp") as [w|] eqn:Hexp; cbn; [|reflexivity].
    destruct (issued_claims_exp _ _ Hc Hexp) as [e ->]. reflexivity.
  - destruct (claims !! "exp") as [w|] eqn:Hexp; cbn; [|reflexivity].
    destruct (issued_claims_exp _ _ Hc Hexp) as [e ->]. reflexivity.
Qed.

(** The symbolic codec meets the contract assumed of python-jose. *)
#[global] Instance sym_jose_laws : JoseJWTLaws sym_token.
Proof.
  split. intros claims key alg now Hc. cbn. unfold sym_decode, sym_encode.
  rewrite decide_True by (split; [reflexivity | apply list_elem_of_singleton; reflexivity]).
  rewrite sym_validate_issued by assumption.
  destruct (expired now (to_intdate claims)); reflexivity.
Qed.

(** ** Token issuance and resolution *)

Section Resolution.

Context {token : Type} `{!JoseJWT token} `{!JoseJWTLaws token}.

Variable settings : Settings.

(** Decoding a token whose claims are issued claims plus an expiry
    [e]: an error once the clock has passed [e], the claims before. *)
Lemma decode_issued (data : gmap string value) (e now : Z) (key alg : string) :
  issued_claims data ->
  jwt_decode (jwt_encode (<["exp" := VDatetime e]> data) key alg) key [alg] now =
    if (e <? now)%Z then inl ExpiredSignatureError
    else inr (to_intdate (<["exp" := VDatetime e]> data)).
Proof.
  intros Hd.
  rewrite jwt_decode_encode by (apply issued_claims_insert; [reflexivity | assumption]).
  unfold expired. rewrite to_intdate_lookup_exp, lookup_insert_eq. reflexivity.
Qed.

Lemma issued_sub (data : gmap string value) (e : Z) :
  to_intdate (<["exp" := VDatetime e]> data) !! "sub" = data !! "sub".
Proof.
  rewrite to_intdate_lookup_sub. apply lookup_insert_ne. discriminate.
Qed.

(** The three ways out of [get_current_user], by what [jwt.decode] and
    the subject lookup give. *)
Lemma get_current_user_decode_error (now : Z) (t : token)
    (user_service : UserService) (e : jwt_error) :
  jwt_decode t (JWT_SECRET settings) [JWT_ALGORITHM settings] now = inl e ->
  get_current_user settings now t user_service = Raise credentials_exception.
Proof.
  intros Hd. unfold get_current_user, jwt_decode_r. rewrite Hd. reflexivity.
Qed.

Lemma get_current_user_subject (now : Z) (t : token)
    (user_service : UserService) (payload : gmap string value) (v : value) :
  jwt_decode t (JWT_SECRET settings) [JWT_ALGORITHM settings] now = inr payload ->
  payload !! "sub" = Some v -> v <> VNone ->
  get_current_user settings now t user_service =
    match get_user_by_username user_service v with
    | Some user => Return user
    | None => Raise credentials_exception
    end.
Proof.
  intros Hd Hs Hv. unfold get_current_user, jwt_decode_r, getitem.
  rewrite Hd. cbn. rewrite Hs. cbn.
  rewrite decide_False by assumption. cbn.
  destruct (get_user_by_username user_service v); reflexivity.
Qed.

Lemma get_current_user_no_subject (now : Z) (t : token)
    (user_service : UserService) (payload : gmap string value) :
  jwt_decode t (JWT_SECRET settings) [JWT_ALGORITHM settings] now = inr payload ->
  payload !! "sub" = None ->
  get_current_user settings now t user_service = Raise (KeyError "sub").
Proof.
  intros Hd Hs. unfold get_current_user, jwt_decode_r, getitem.
  rewrite Hd. cbn. rewrite Hs. reflexivity.
Qed.

Lemma get_email_from_token_subject (now : Z) (t : token)
    (payload : gmap string value) (v : value) :
  jwt_decode t (JWT_SECRET settings) [JWT_ALGORITHM settings] now = inr payload ->
  payload !! "sub" = Some v ->
  get_email_from_token settings now t = Return v.
Proof.
  intros Hd Hs. unfold get_email_from_token, jwt_decode_r, getitem.
  rewrite Hd. cbn. rewrite Hs. reflexivity.
Qed.

(** A token of [create_access_token] decodes, up to and including its
    expiry second, to the data with the expiry as an integer. *)
Lemma decode_access_token (issued now : Z) (data : gmap string value)
    (expires_delta : option Z) :
  issued_claims data ->
  now <= issued + lifetime settings expires_delta ->
  jwt_decode (create_access_token settings issued data expires_delta)
    (JWT_SECRET settings) [JWT_ALGORITHM settings] now =
  inr (to_intdate (<["exp" := VDatetime (issued + lifetime settings expires_delta)]> data)).
Proof.
  intros Hd Hle. unfold create_access_token.
  replace (if truthy_int expires_delta then issued + default 0 expires_delta
           else issued + JWT_EXPIRATION_SECONDS settings)
    with (issued + lifetime settings expires_delta)
    by (unfold lifetime; destruct (truthy_int expires_delta); reflexivity).
  rewrite decode_issued by assumption.
  destruct (Z.ltb_spec (issued + lifetime settings expires_delta) now); [lia | reflexivity].
Qed.

Lemma decode_email_token (now_exp now_iat now : Z) (data : gmap string value) :
  issued_claims data ->
  now <= now_exp + 7 * 86400 ->
  jwt_decode (create_email_token settings now_exp now_iat data)
    (JWT_SECRET settings) [JWT_ALGORITHM settings] now =
  inr (to_intdate (<["exp" := VDatetime (now_exp + 7 * 86400)]>
                     (<["iat" := VDatetime now_iat]> data))).
Proof.
  intros Hd Hle. unfold create_email_token.
  rewrite decode_issued by (apply issued_claims_insert; [reflexivity | assumption]).
  destruct (Z.ltb_spec (now_exp + 7 * 86400) now); [lia | reflexivity].
Qed.

(** C1.  The access token issued for a username resolves to that
    username: before expiry and under the same settings, the token of
    [create_access_token] with claims [{sub: u}] decodes to a claim set
    whose subject is [u], and [get_current_user] answers with the user
    service's lookup of [u]: the user found, or the credentials exception
    when there is none. *)
Theorem access_token_round_trip (u : string) (issued now : Z)
    (expires_delta : option Z) (user_service : UserService) :
  now <= issued + lifetime settings expires_delta ->
  let t := create_access_token settings issued {[ "sub" := VStr u ]}
             expires_delta in
  (exists payload,
     jwt_decode t (JWT_SECRET settings) [JWT_ALGORITHM settings] now = inr payload
     /\ payload !! "sub" = Some (VStr u))
  /\ get_current_user settings now t user_service =
       match get_user_by_username user_service (VStr u) with
       | Some user => Return user
       | None => Raise credentials_exception
       end.
Proof.
  intros Hle t.
  pose proof (decode_access_token issued now {[ "sub" := VStr u ]}
                expires_delta (issued_claims_subject u) Hle) as Hd.
  fold t in Hd.
  assert (Hs : to_intdate (<["exp" := VDatetime (issued + lifetime settings expires_delta)]>
                 ({[ "sub" := VStr u ]} : gmap string value)) !! "sub"
               = Some (VStr u))
    by (rewrite issued_sub; apply lookup_singleton_eq).
  split; [eauto |].
  eapply get_current_user_subject; [eassumption | eassumption | discriminate].
Qed.

(** C3.  What [get_current_user] does on every token.  It fails with
    the 401 credentials exception whenever the token does not decode
    (invalid or expired) or carries a null subject, and whenever it
    decodes to a subject for which the user lookup finds no user; when
    the lookup finds a user, that user is returned.  One case is left,
    and there the code does neither: on a token that decodes to a claim
    set without a subject, [payload["sub"]] raises [KeyError], which is
    no HTTP 401 and no user. *)
Theorem get_current_user_unauthorized (now : Z) (t : token)
    (user_service : UserService) :
  http_status credentials_exception = Some 401
  /\ (forall e,
        jwt_decode t (JWT_SECRET settings) [JWT_ALGORITHM settings] now = inl e ->
        get_current_user settings now t user_service = Raise credentials_exception)
  /\ (forall payload,
        jwt_decode t (JWT_SECRET settings) [JWT_ALGORITHM settings] now = inr payload ->
        payload !! "sub" = Some VNone ->
        get_current_user settings now t user_service = Raise credentials_exception)
  /\ (forall payload username,
        jwt_decode t (JWT_SECRET settings) [JWT_ALGORITHM settings] now = inr payload ->
        payload !! "sub" = Some username -> username <> VNone ->
        (get_user_by_username user_service username = None ->
         get_current_user settings now t user_service = Raise credentials_exception)
        /\ (forall user,
              get_user_by_username user_service username = Some user ->
              get_current_user settings now t user_service = Return user))
  /\ (forall payload,
        jwt_decode t (JWT_SECRET settings) [JWT_ALGORITHM settings] now = inr payload ->
        payload !! "sub" = None ->
        get_current_user settings now t user_service = Raise (KeyError "sub")
        /\ http_status (KeyError "sub") = None
        /\ ~ (exists user,
               get_current_user settings now t user_service = Return user)).
Proof.
  split; [reflexivity |]. split; [| split; [| split]].
  - intros e Hd. eapply get_current_user_decode_error; eassumption.
  - intros payload Hd Hs. unfold get_current_user, jwt_decode_r, getitem.
    rewrite Hd. cbn. rewrite Hs. reflexivity.
  - intros payload username Hd Hs Hv.
    rewrite (get_current_user_subject now t user_service payload username Hd Hs Hv).
    split.
    + intros ->. reflexivity.
    + intros user ->. reflexivity.
  - intros payload Hd Hs.
    rewrite (get_current_user_no_subject now t user_service payload Hd Hs).
    split; [reflexivity |]. split; [reflexivity |].
    intros [user Hu]. discriminate.
Qed.

(** C6.  What the code does on a token that decodes to a claim set
    without a subject: [payload["sub"]] raises [KeyError], which
    [except JWTError] does not catch, so the caller gets no HTTP 401 but
    an unhandled error. *)
Theorem get_current_user_missing_sub (now : Z) (t : token)
    (user_service : UserService) (payload : gmap string value) :
  jwt_decode t (JWT_SECRET settings) [JWT_ALGORITHM settings] now = inr payload ->
  payload !! "sub" = None ->
  get_current_user settings now t user_service = Raise (KeyError "sub")
  /\ get_current_user settings now t user_service <> Raise credentials_exception
  /\ http_status (KeyError "sub") = None.
Proof.
  intros Hd Hs.
  rewrite (get_current_user_no_subject now t user_service payload Hd Hs).
  split; [reflexivity |]. split; [discriminate | reflexivity].
Qed.

(** C8.  On a token whose decoding fails, [get_email_from_token] raises
    the HTTP 422 exception, while [get_current_user] raises the HTTP 401
    one: two different failures. *)
Theorem email_token_unprocessable (now : Z) (t : token)
    (user_service : UserService) (e : jwt_error) :
  jwt_decode t (JWT_SECRET settings) [JWT_ALGORITHM settings] now = inl e ->
  get_email_from_token settings now t = Raise email_token_exception
  /\ http_status email_token_exception = Some 422
  /\ get_current_user settings now t user_service = Raise credentials_exception
  /\ http_status credentials_exception = Some 401
  /\ email_token_exception <> credentials_exception.
Proof.
  intros Hd. split.
  - unfold get_email_from_token, jwt_decode_r. rewrite Hd. reflexivity.
  - split; [reflexivity |]. split.
    + eapply get_current_user_decode_error; eassumption.
    + split; [reflexivity | discriminate].
Qed.

(** C10.  An [expires_delta] of 0 is falsy, so the token is the one
    issued without an [expires_delta]: its expiry is the clock reading
    plus [JWT_EXPIRATION_SECONDS] (3600 by default), and with a default
    lifetime that is not negative the token decodes at the moment it is
    issued. *)
Theorem zero_expires_delta_uses_default (now : Z) (data : gmap string value) :
  issued_claims data ->
  0 <= JWT_EXPIRATION_SECONDS settings ->
  create_access_token settings now data (Some 0) =
    create_access_token settings now data None
  /\ create_access_token settings now data (Some 0) =
       jwt_encode
         (<["exp" := VDatetime (now + JWT_EXPIRATION_SECONDS settings)]> data)
         (JWT_SECRET settings) (JWT_ALGORITHM settings)
  /\ (exists payload,
        jwt_decode (create_access_token settings now data (Some 0))
          (JWT_SECRET settings) [JWT_ALGORITHM settings] now = inr payload
        /\ payload !! "exp" = Some (VInt (now + JWT_EXPIRATION_SECONDS settings)))
  /\ JWT_EXPIRATION_SECONDS (Settings_defaults (JWT_SECRET settings)) = 3600.
Proof.
  intros Hd Hpos. split; [reflexivity |]. split; [reflexivity |].
  split; [| reflexivity].
  eexists. split.
  - apply decode_access_token; [assumption |].
    unfold lifetime. cbn. lia.
  - rewrite to_intdate_lookup_exp, lookup_insert_eq. reflexivity.
Qed.

(** C4, as the code has it.  Nothing in a token tells the two kinds
    apart.  An access token issued for a subject [s] is accepted by
    [get_email_from_token], which returns [s], for as long as the access
    token has not expired, whatever its lifetime; and an email token
    issued for [s] is, for its seven days, decoded by [get_current_user],
    which treats [s] as a username: it returns the user of that name when
    there is one, and raises the credentials exception only when there is
    none. *)
Theorem token_kinds_interchangeable (s : string) (issued now_iat now : Z)
    (expires_delta : option Z) (user_service : UserService) :
  (now <= issued + lifetime settings expires_delta ->
   get_email_from_token settings now
     (create_access_token settings issued {[ "sub" := VStr s ]} expires_delta)
   = Return (VStr s))
  /\ (now <= issued + 7 * 86400 ->
      get_current_user settings now
        (create_email_token settings issued now_iat {[ "sub" := VStr s ]})
        user_service
      = match get_user_by_username user_service (VStr s) with
        | Some user => Return user
        | None => Raise credentials_exception
        end).
Proof.
  split; [intros Ha | intros He].
  - eapply get_email_from_token_subject.
    + apply decode_access_token; [apply issued_claims_subject | assumption].
    + rewrite issued_sub. apply lookup_singleton_eq.
  - eapply get_current_user_subject.
    + apply decode_email_token; [apply issued_claims_subject | assumption].
    + rewrite issued_sub, lookup_insert_ne by discriminate.
      apply lookup_singleton_eq.
    + discriminate.
Qed.

End Resolution.

(** ** Password verification *)

(** C7, as the code has it.  [verify_password] hands the stored string
    to the context and returns or raises what the context does: a string
    the configured scheme does not identify raises [UnknownHashError]
    instead of giving [False], and an identified one gets the scheme's
    own answer. *)
Theorem verify_password_unidentified `{!CryptContext}
    (plain_password hashed_password : string) :
  ctx_identify hashed_password = false ->
  Hash.verify_password plain_password hashed_password = Raise UnknownHashError
  /\ Hash.verify_password plain_password hashed_password <> Return false.
Proof.
  intros Hid. unfold Hash.verify_password, pwd_context_verify.
  rewrite Hid. split; [reflexivity | discriminate].
Qed.

Lemma verify_password_identified `{!CryptContext}
    (plain_password hashed_password : string) :
  ctx_identify hashed_password = true ->
  Hash.verify_password plain_password hashed_password =
    ctx_scheme_verify plain_password hashed_password.
Proof.
  intros Hid. unfold Hash.verify_password, pwd_context_verify.
  rewrite Hid. reflexivity.
Qed.

(** ** The handlers *)

Section Handlers.

Context {token : Type} `{!JoseJWT token} `{!CryptContext}.

Variable settings : Settings.
Variable json_dumps : list (string * value) -> string.

(** C9.  [login_user] has two outcomes.  When the username is known, the
    password verifies against the stored hash and the user is confirmed,
    it answers with a bearer access token for the username and leaves
    the Redis store with the snapshot under ["user:" + username] with a
    time to live of 3600 seconds; the snapshot is [json.dumps] of the
    dict whose [id], [username], [email] and [avatar] are those of the
    user found and whose [confirmed] is [True].  In every other case it
    raises, so no token is issued, and the store is left as it was. *)
Theorem login_user_cache_write (now : Z)
    (form_data : OAuth2PasswordRequestForm.t) (user_service : UserService)
    (redis : gmap string redis_entry) :
  let accepted (user : User.t) : Prop :=
    get_user_by_username user_service
      (VStr (OAuth2PasswordRequestForm.username form_data)) = Some user
    /\ Hash.verify_password (OAuth2PasswordRequestForm.password form_data)
         (User.hashed_password user) = Return true
    /\ User.confirmed user = Some true in
  let out := login_user settings json_dumps now form_data user_service redis in
  (exists user,
     accepted user
     /\ out.1 = Return
          {| access_token :=
               create_access_token settings now
                 {[ "sub" := VStr (User.username user) ]} None;
             token_type := "bearer" |}
     /\ out.2 = <["user:" +:+ User.username user :=
                   {| r_value :=
                        json_dumps
                          [ ("id", VInt (User.id user));
                            ("username", VStr (User.username user));
                            ("email", VStr (User.email user));
                            ("confirmed", VBool true);
                            ("avatar",
                             match User.avatar user with
                             | Some url => VStr url
                             | None => VNone
                             end) ];
                      r_ttl := Some 3600 |}]> redis)
  \/ ((forall user, ~ accepted user) /\ rejected out.1 /\ out.2 = redis).
Proof.
  intros accepted out. subst accepted out. unfold login_user.
  destruct (get_user_by_username user_service _) as [user|] eqn:Hu.
  - destruct (Hash.verify_password _ _) as [[|]|e] eqn:Hv.
    + destruct (User.confirmed user) as [[|]|] eqn:Hc; cbn.
      * left. exists user. rewrite Hc. repeat split; try assumption.
        unfold redis_expire, redis_set, user_data.
        rewrite alter_insert_eq, Hc. reflexivity.
      * right. repeat split; [| eexists; reflexivity].
        intros u (Hu' & _ & Hc'). congruence.
      * right. repeat split; [| eexists; reflexivity].
        intros u (Hu' & _ & Hc'). congruence.
    + right. cbn. repeat split; [| eexists; reflexivity].
      intros u (Hu' & Hv' & _). congruence.
    + right. cbn. repeat split; [| eexists; reflexivity].
      intros u (Hu' & Hv' & _). congruence.
  - right. cbn. repeat split; [| eexists; reflexivity].
    intros u (Hu' & _). congruence.
Qed.

End Handlers.

(** C5, as the code has it.  For an address the user service knows,
    [request_email] completes: for a confirmed user it answers that the
    address is already confirmed and queues nothing; otherwise it queues
    one confirmation mail to that user and answers with the neutral
    acknowledgement. *)
Theorem request_email_known_user (body_email base_url : string)
    (background_tasks : list task) (user_service : UserService)
    (user : User.t) :
  get_user_by_email user_service (VStr body_email) = Some user ->
  request_email body_email background_tasks base_url user_service =
    if truthy_bool (User.confirmed user)
    then (Return already_confirmed_message, background_tasks)
    else (Return check_email_message,
          add_task background_tasks
            (send_email (User.email user) (User.username user) base_url)).
Proof.
  intros Hu. unfold request_email. rewrite Hu. cbn.
  destruct (truthy_bool (User.confirmed user)); reflexivity.
Qed.

(** ** The statements at concrete inputs *)

(** A token for alice issued at second 0, resolved at second 100. *)
Lemma access_token_round_trip_witness :
  100 <= 0 + lifetime sample_settings None
  /\ get_current_user sample_settings 100
       (create_access_token sample_settings 0 {[ "sub" := VStr "alice" ]} None)
       sample_users
     = Return alice.
Proof.
  assert (H : 100 <= 0 + lifetime sample_settings None) by (cbn; lia).
  split; [exact H |].
  exact (proj2 (access_token_round_trip sample_settings "alice" 0 100 None
                  sample_users H)).
Defined.

(** A string that is no token, a token for an unknown name, a token for
    alice, and a token signed with the configured secret that carries no
    subject. *)
Lemma get_current_user_unauthorized_witness :
  get_current_user sample_settings 100 (Garbage "x.y.z") sample_users
    = Raise credentials_exception
  /\ get_current_user sample_settings 100
       (create_access_token sample_settings 0 {[ "sub" := VStr "mallory" ]} None)
       sample_users
     = Raise credentials_exception
  /\ get_current_user sample_settings 100
       (create_access_token sample_settings 0 {[ "sub" := VStr "alice" ]} None)
       sample_users
     = Return alice
  /\ get_current_user sample_settings 100
       (create_access_token sample_settings 0 ∅ None) sample_users
     = Raise (KeyError "sub").
Proof.
  split; [| split; [| split]].
  - destruct (get_current_user_unauthorized sample_settings 100
                (Garbage "x.y.z") sample_users) as (_ & H & _).
    apply (H JWTError_base). reflexivity.
  - destruct (get_current_user_unauthorized sample_settings 100
                (create_access_token sample_settings 0
                   {[ "sub" := VStr "mallory" ]} None) sample_users)
      as (_ & _ & _ & H & _).
    refine (proj1 (H _ (VStr "mallory") eq_refl _ _) _);
      [reflexivity | discriminate | reflexivity].
  - destruct (get_current_user_unauthorized sample_settings 100
                (create_access_token sample_settings 0
                   {[ "sub" := VStr "alice" ]} None) sample_users)
      as (_ & _ & _ & H & _).
    refine (proj2 (H _ (VStr "alice") eq_refl _ _) alice _);
      [reflexivity | discriminate | reflexivity].
  - destruct (get_current_user_unauthorized sample_settings 100
                (create_access_token sample_settings 0 ∅ None) sample_users)
      as (_ & _ & _ & _ & H).
    refine (proj1 (H _ eq_refl _)). reflexivity.
Defined.

(** A token signed with the configured secret whose claims are an
    expiry and nothing else. *)
Lemma get_current_user_missing_sub_witness :
  get_current_user sample_settings 100
    (create_access_token sample_settings 0 ∅ None) sample_users
  = Raise (KeyError "sub").
Proof.
  refine (proj1 (get_current_user_missing_sub sample_settings 100
                   (create_access_token sample_settings 0 ∅ None) sample_users
                   _ eq_refl _)).
  reflexivity.
Defined.

(** A string that is no token, and a token that expired at second 10. *)
Lemma email_token_unprocessable_witness :
  get_email_from_token sample_settings 100 (Garbage "x.y.z")
    = Raise email_token_exception
  /\ get_email_from_token sample_settings 100
       (create_email_token sample_settings (-604790) (-604790)
          {[ "sub" := VStr "alice@x.com" ]})
     = Raise email_token_exception.
Proof.
  split.
  - exact (proj1 (email_token_unprocessable sample_settings 100
                    (Garbage "x.y.z") sample_users JWTError_base eq_refl)).
  - exact (proj1 (email_token_unprocessable sample_settings 100
                    (create_email_token sample_settings (-604790) (-604790)
                       {[ "sub" := VStr "alice@x.com" ]})
                    sample_users ExpiredSignatureError eq_refl)).
Defined.

Lemma zero_expires_delta_uses_default_witness :
  issued_claims {[ "sub" := VStr "alice" ]}
  /\ 0 <= JWT_EXPIRATION_SECONDS sample_settings
  /\ create_access_token sample_settings 50 {[ "sub" := VStr "alice" ]} (Some 0)
     = sym_encode {[ "sub" := VStr "alice"; "exp" := VDatetime 3650 ]}
         "s3cret" "HS256".
Proof.
  assert (Hc : issued_claims {[ "sub" := VStr "alice" ]})
    by apply issued_claims_subject.
  assert (Hp : 0 <= JWT_EXPIRATION_SECONDS sample_settings) by (cbn; lia).
  split; [exact Hc |]. split; [exact Hp |].
  destruct (zero_expires_delta_uses_default sample_settings 50
              {[ "sub" := VStr "alice" ]} Hc Hp) as (_ & -> & _).
  vm_compute. reflexivity.
Defined.

(** An access token of thirty days presented as an email token in its
    ninth day, and an email token presented as an access token. *)
Lemma token_kinds_interchangeable_witness :
  700000 <= 0 + lifetime sample_settings (Some 2592000)
  /\ 10 <= 0 + 7 * 86400
  /\ get_email_from_token sample_settings 700000
       (create_access_token sample_settings 0 {[ "sub" := VStr "alice" ]}
          (Some 2592000))
     = Return (VStr "alice")
  /\ get_current_user sample_settings 10
       (create_email_token sample_settings 0 0 {[ "sub" := VStr "carol@x.com" ]})
       sample_users
     = Return carol.
Proof.
  assert (Ha : 700000 <= 0 + lifetime sample_settings (Some 2592000))
    by (cbn; lia).
  assert (He : 10 <= 0 + 7 * 86400) by lia.
  split; [exact Ha |]. split; [exact He |]. split.
  - exact (proj1 (token_kinds_interchangeable sample_settings "alice" 0 0 700000
                    (Some 2592000) sample_users) Ha).
  - exact (proj2 (token_kinds_interchangeable sample_settings "carol@x.com"
                    0 0 10 None sample_users) He).
Defined.

(** C4, as stated, fails: an access token for alice is accepted as an
    email token, and an email token for carol's address is accepted as an
    access token of the user so named. *)
Lemma token_kinds_not_rejected :
  let access :=
    create_access_token sample_settings 0 {[ "sub" := VStr "alice" ]} None in
  let email :=
    create_email_token sample_settings 0 0 {[ "sub" := VStr "carol@x.com" ]} in
  get_email_from_token sample_settings 10 access = Return (VStr "alice")
  /\ ~ rejected (get_email_from_token sample_settings 10 access)
  /\ get_current_user sample_settings 10 email sample_users = Return carol
  /\ ~ rejected (get_current_user sample_settings 10 email sample_users).
Proof.
  cbv zeta.
  assert (H1 : get_email_from_token sample_settings 10
                 (create_access_token sample_settings 0
                    {[ "sub" := VStr "alice" ]} None) = Return (VStr "alice"))
    by (vm_compute; reflexivity).
  assert (H2 : get_current_user sample_settings 10
                 (create_email_token sample_settings 0 0
                    {[ "sub" := VStr "carol@x.com" ]}) sample_users
               = Return carol)
    by (vm_compute; reflexivity).
  rewrite H1, H2.
  repeat split; intros [e He]; discriminate.
Qed.

Lemma verify_password_unidentified_witness :
  ctx_identify "pw123" = false
  /\ Hash.verify_password "pw123" "pw123" = Raise UnknownHashError.
Proof.
  split; [reflexivity |].
  exact (proj1 (verify_password_unidentified "pw123" "pw123" eq_refl)).
Defined.

(** C7, as stated, fails: against a stored string that is no bcrypt hash
    the call raises and does not return [False]. *)
Lemma verify_password_malformed_raises :
  Hash.verify_password "pw123" "not-a-bcrypt-hash" = Raise UnknownHashError
  /\ Hash.verify_password "pw123" "not-a-bcrypt-hash" <> Return false.
Proof.
  split; [reflexivity | discriminate].
Qed.

Lemma request_email_known_user_witness :
  get_user_by_email sample_users (VStr "bob@x.com") = Some bob
  /\ request_email "bob@x.com" [] "http://testserver/" sample_users
     = (Return check_email_message,
        [send_email "bob@x.com" "bob" "http://testserver/"]).
Proof.
  split; [reflexivity |].
  exact (request_email_known_user "bob@x.com" "http://testserver/" []
           sample_users bob eq_refl).
Defined.

(** C5, as stated, fails.  For the address of a confirmed user the
    answer is not the neutral acknowledgement but says the address is
    confirmed; and for an address no user has, [user.confirmed] raises
    before any answer is made. *)
Lemma request_email_reveals :
  request_email "alice@x.com" [] "http://testserver/" sample_users
    = (Return already_confirmed_message, [])
  /\ already_confirmed_message <> check_email_message
  /\ request_email "nobody@x.com" [] "http://testserver/" sample_users
     = (Raise (AttributeError "'NoneType' object has no attribute 'confirmed'"),
        []).
Proof.
  split; [reflexivity |]. split; [| reflexivity].
  intros H.
  apply (f_equal (fun m : gmap string value => m !! "message")) in H.
  vm_compute in H. discriminate.
Qed.

(** [login_user] on the sample users: alice logs in, bob is not
    confirmed, and a wrong password writes nothing. *)
Example login_alice :
  login_user sample_settings ref_dumps 5
    (OAuth2PasswordRequestForm.mk "alice" "pw123") sample_users ∅
  = (Return {| access_token :=
                 Sealed "HS256" "s3cret"
                   {[ "sub" := VStr "alice"; "exp" := VInt 3605 ]};
               token_type := "bearer" |},
     {[ "user:alice" :=
          {| r_value :=
               "{'id': 1, 'username': 'alice', 'email': 'alice@x.com', 'confirmed': true, 'avatar': null}";
             r_ttl := Some 3600 |} ]}).
Proof. vm_compute. reflexivity. Qed.

Example login_bob_unconfirmed :
  login_user sample_settings ref_dumps 5
    (OAuth2PasswordRequestForm.mk "bob" "hunter2") sample_users ∅
  = (Raise unconfirmed_exception, ∅).
Proof. vm_compute. reflexivity. Qed.

Example login_wrong_password :
  login_user sample_settings ref_dumps 5
    (OAuth2PasswordRequestForm.mk "alice" "pw124") sample_users ∅
  = (Raise invalid_login_exception, ∅).
Proof. vm_compute. reflexivity. Qed.

(** * Further properties of the token functions *)

Section Tokens.

Context {token : Type} `{!JoseJWT token} `{!JoseJWTLaws token}.

Variable settings : Settings.

(** Past its expiry second a token of [create_access_token] no longer
    decodes. *)
Lemma decode_access_token_expired (issued now : Z) (data : gmap string value)
    (expires_delta : option Z) :
  issued_claims data ->
  issued + lifetime settings expires_delta < now ->
  jwt_decode (create_access_token settings issued data expires_delta)
    (JWT_SECRET settings) [JWT_ALGORITHM settings] now =
  inl ExpiredSignatureError.
Proof.
  intros Hd Hlt. unfold create_access_token.
  replace (if truthy_int expires_delta then issued + default 0 expires_delta
           else issued + JWT_EXPIRATION_SECONDS settings)
    with (issued + lifetime settings expires_delta)
    by (unfold lifetime; destruct (truthy_int expires_delta); reflexivity).
  rewrite decode_issued by assumption.
  destruct (Z.ltb_spec (issued + lifetime settings expires_delta) now);
    [reflexivity | lia].
Qed.

Lemma decode_email_token_expired (now_exp now_iat now : Z)
    (data : gmap string value) :
  issued_claims data ->
  now_exp + 7 * 86400 < now ->
  jwt_decode (create_email_token settings now_exp now_iat data)
    (JWT_SECRET settings) [JWT_ALGORITHM settings] now =
  inl ExpiredSignatureError.
Proof.
  intros Hd Hlt. unfold create_email_token.
  rewrite decode_issued by (apply issued_claims_insert; [reflexivity | assumption]).
  destruct (Z.ltb_spec (now_exp + 7 * 86400) now); [reflexivity | lia].
Qed.

(** X1.  An email token resolves to the address it was issued for: up
    to seven days (604800 seconds) after it was issued,
    [get_email_from_token] returns the subject given to
    [create_email_token], and the decoded claims carry the issue time and
    an expiry seven days after the first clock reading. *)
Theorem email_token_round_trip (e : string) (now_exp now_iat now : Z) :
  now <= now_exp + 604800 ->
  let t := create_email_token settings now_exp now_iat {[ "sub" := VStr e ]} in
  get_email_from_token settings now t = Return (VStr e)
  /\ jwt_decode t (JWT_SECRET settings) [JWT_ALGORITHM settings] now =
       inr {[ "sub" := VStr e; "iat" := VInt now_iat;
              "exp" := VInt (now_exp + 604800) ]}.
Proof.
  intros Hle t.
  assert (Hd : jwt_decode t (JWT_SECRET settings) [JWT_ALGORITHM settings] now =
               inr (to_intdate (<["exp" := VDatetime (now_exp + 7 * 86400)]>
                      (<["iat" := VDatetime now_iat]> {[ "sub" := VStr e ]}))))
    by (apply decode_email_token; [apply issued_claims_subject | lia]).
  split.
  - eapply get_email_from_token_subject; [exact Hd |].
    rewrite issued_sub, lookup_insert_ne by discriminate.
    apply lookup_singleton_eq.
  - rewrite Hd. reflexivity.
Qed.

(** X2.  An access token is good for its lifetime and no longer: from
    the first second after [issued + lifetime], [get_current_user] raises
    the 401 credentials exception whatever the token's subject and
    whoever is in the user service. *)
Theorem access_token_expires (issued now : Z) (data : gmap string value)
    (expires_delta : option Z) (user_service : UserService) :
  issued_claims data ->
  issued + lifetime settings expires_delta < now ->
  get_current_user settings now
    (create_access_token settings issued data expires_delta) user_service
  = Raise credentials_exception.
Proof.
  intros Hd Hlt. eapply get_current_user_decode_error.
  apply decode_access_token_expired; assumption.
Qed.

(** X3.  From the first second after seven days, an email token is
    turned down by [get_email_from_token] with the 422 exception. *)
Theorem email_token_expires (now_exp now_iat now : Z)
    (data : gmap string value) :
  issued_claims data ->
  now_exp + 604800 < now ->
  get_email_from_token settings now
    (create_email_token settings now_exp now_iat data)
  = Raise email_token_exception.
Proof.
  intros Hd Hlt. unfold get_email_from_token, jwt_decode_r.
  rewrite decode_email_token_expired by (assumption || lia). reflexivity.
Qed.

(** X4.  A negative [expires_delta] is truthy and taken as it is: the
    token is issued with an expiry in the past and is refused by
    [get_current_user] already at the second it was issued. *)
Theorem negative_expires_delta_expired (issued d : Z)
    (data : gmap string value) (user_service : UserService) :
  issued_claims data ->
  d < 0 ->
  lifetime settings (Some d) = d
  /\ get_current_user settings issued
       (create_access_token settings issued data (Some d)) user_service
     = Raise credentials_exception.
Proof.
  intros Hd Hneg.
  assert (Hl : lifetime settings (Some d) = d).
  { unfold lifetime. cbn. destruct (Z.eqb_spec d 0); [lia | reflexivity]. }
  split; [exact Hl |].
  eapply get_current_user_decode_error.
  apply decode_access_token_expired; [assumption | lia].
Qed.

(** X6.  [get_email_from_token] on a token that decodes to a claim set
    without a subject: [payload["sub"]] raises [KeyError], which is not a
    [JWTError], so the caller gets no 422 but an unhandled error. *)
Theorem get_email_from_token_missing_sub (now : Z) (t : token)
    (payload : gmap string value) :
  jwt_decode t (JWT_SECRET settings) [JWT_ALGORITHM settings] now = inr payload ->
  payload !! "sub" = None ->
  get_email_from_token settings now t = Raise (KeyError "sub")
  /\ http_status (KeyError "sub") = None.
Proof.
  intros Hd Hs. unfold get_email_from_token, jwt_decode_r, getitem.
  rewrite Hd. cbn. rewrite Hs. split; reflexivity.
Qed.

End Tokens.

(** X5.  The expiry is the function's own: an ["exp"] the caller puts
    in [data] is overwritten by [create_access_token], and
    [create_email_token] overwrites both ["exp"] and ["iat"]. *)
Theorem issued_expiry_overrides_data {token : Type} `{!JoseJWT token}
    (settings : Settings) (now now_iat : Z) (data : gmap string value)
    (v w : value) (expires_delta : option Z) :
  create_access_token settings now (<["exp" := v]> data) expires_delta
    = create_access_token settings now data expires_delta
  /\ create_email_token settings now now_iat
       (<["exp" := v]> (<["iat" := w]> data))
     = create_email_token settings now now_iat data.
Proof.
  unfold create_access_token, create_email_token. split.
  - rewrite insert_insert_eq. reflexivity.
  - f_equal. apply map_eq. intros k.
    destruct (decide (k = "exp")) as [-> | Hexp].
    { rewrite !lookup_insert_eq. reflexivity. }
    rewrite !(lookup_insert_ne _ "exp" k) by congruence.
    destruct (decide (k = "iat")) as [-> | Hiat].
    { rewrite !lookup_insert_eq. reflexivity. }
    repeat (rewrite lookup_insert_ne by congruence).
    reflexivity.
Qed.

(** * Further properties of the handlers *)

Section Login.

Context {token : Type} `{!JoseJWT token} `{!JoseJWTLaws token} `{!CryptContext}.

Variable settings : Settings.
Variable json_dumps : list (string * value) -> string.

(** X7.  Logging in again does not pile up cache entries: a second
    [login_user] with the same form leaves the Redis store exactly as the
    first left it (the snapshot rewritten, the time to live back at
    3600), and it fails exactly when the first failed, with the same
    exception. *)
Theorem login_user_twice (now1 now2 : Z)
    (form_data : OAuth2PasswordRequestForm.t) (user_service : UserService)
    (redis : gmap string redis_entry) :
  let out1 := login_user settings json_dumps now1 form_data user_service redis in
  let out2 := login_user settings json_dumps now2 form_data user_service out1.2 in
  out2.2 = out1.2
  /\ (forall e, out1.1 = Raise e <-> out2.1 = Raise e).
Proof.
  cbv zeta. unfold login_user.
  destruct (get_user_by_username user_service _) as [user|]; [| cbn; tauto].
  destruct (Hash.verify_password _ _) as [[|]|e]; [| cbn; tauto | cbn; tauto].
  destruct (truthy_bool (User.confirmed user)); cbn; [| tauto].
  split.
  - unfold redis_expire, redis_set.
    rewrite !alter_insert_eq, insert_insert_eq. reflexivity.
  - intros e. split; discriminate.
Qed.


(** X9.  When the hash stored for the user is a string the password
    context does not identify, [login_user] does not answer 401: the
    [UnknownHashError] of [verify_password] leaves the handler unhandled,
    whatever password was sent, and the store is untouched. *)
Theorem login_user_unidentified_hash (now : Z)
    (form_data : OAuth2PasswordRequestForm.t) (user_service : UserService)
    (redis : gmap string redis_entry) (user : User.t) :
  get_user_by_username user_service
    (VStr (OAuth2PasswordRequestForm.username form_data)) = Some user ->
  ctx_identify (User.hashed_password user) = false ->
  login_user settings json_dumps now form_data user_service redis
    = (Raise UnknownHashError, redis)
  /\ http_status UnknownHashError = None.
Proof.
  intros Hu Hid. unfold login_user, Hash.verify_password, pwd_context_verify.
  rewrite Hu, Hid. split; reflexivity.
Qed.

(** X10.  The token of a successful login authenticates its bearer as
    the user who logged in: for as long as [JWT_EXPIRATION_SECONDS] after
    the login, [get_current_user] on that token looks up the username of
    the user found at login, and returns that user when the user service
    finds the user under the user's own name. *)
Theorem login_then_get_current_user (now now' : Z)
    (form_data : OAuth2PasswordRequestForm.t) (user_service : UserService)
    (redis : gmap string redis_entry) (response : TokenResponse) :
  (login_user settings json_dumps now form_data user_service redis).1
    = Return response ->
  now' <= now + JWT_EXPIRATION_SECONDS settings ->
  exists user,
    get_user_by_username user_service
      (VStr (OAuth2PasswordRequestForm.username form_data)) = Some user
    /\ get_current_user settings now' (access_token response) user_service =
         match get_user_by_username user_service (VStr (User.username user)) with
         | Some user' => Return user'
         | None => Raise credentials_exception
         end
    /\ (get_user_by_username user_service (VStr (User.username user)) = Some user ->
        get_current_user settings now' (access_token response) user_service
          = Return user).
Proof.
  unfold login_user. intros Hr Hle.
  destruct (get_user_by_username user_service _) as [user|] eqn:Hu;
    [| discriminate].
  destruct (Hash.verify_password _ _) as [[|]|e]; try discriminate.
  destruct (truthy_bool (User.confirmed user)); cbn in Hr; [| discriminate].
  injection Hr as <-. cbn.
  exists user. split; [reflexivity |].
  assert (Hg : get_current_user settings now'
                 (create_access_token settings now
                    {[ "sub" := VStr (User.username user) ]} None) user_service =
               match get_user_by_username user_service (VStr (User.username user)) with
               | Some user' => Return user'
               | None => Raise credentials_exception
               end).
  { eapply get_current_user_subject.
    - apply decode_access_token; [apply issued_claims_subject | exact Hle].
    - rewrite issued_sub. apply lookup_singleton_eq.
    - discriminate. }
  split; [exact Hg |]. intros Hself. rewrite Hg, Hself. reflexivity.
Qed.

End Login.

(** X11.  [request_email] only ever appends to the queue of background
    tasks, and at most one task: a mail is queued only together with the
    neutral acknowledgement, and it goes to the address and name stored
    for the user found. *)
Theorem request_email_queue (body_email base_url : string)
    (background_tasks : list task) (user_service : UserService) :
  let out := request_email body_email background_tasks base_url user_service in
  out.2 = background_tasks
  \/ exists user,
       get_user_by_email user_service (VStr body_email) = Some user
       /\ truthy_bool (User.confirmed user) = false
       /\ out.1 = Return check_email_message
       /\ out.2 = (background_tasks ++
                     [send_email (User.email user) (User.username user)
                                 base_url])%list.
Proof.
  cbv zeta. unfold request_email.
  destruct (get_user_by_email user_service (VStr body_email)) as [user|] eqn:Hu;
    cbn; [| left; reflexivity].
  destruct (truthy_bool (User.confirmed user)) eqn:Hc; cbn;
    [left; reflexivity |].
  right. exists user. repeat split; assumption.
Qed.

(** X12.  For an address the user service does not know,
    [request_email] reads [user.confirmed] on [None]: it raises
    [AttributeError], an unhandled error, and queues nothing. *)
Theorem request_email_unknown_address (body_email base_url : string)
    (background_tasks : list task) (user_service : UserService) :
  get_user_by_email user_service (VStr body_email) = None ->
  request_email body_email background_tasks base_url user_service
    = (Raise (AttributeError "'NoneType' object has no attribute 'confirmed'"),
       background_tasks)
  /\ http_status (AttributeError "'NoneType' object has no attribute 'confirmed'")
     = None.
Proof.
  intros Hu. unfold request_email. rewrite Hu. split; reflexivity.
Qed.

(** The table store does what is asked of [set_confirmed]. *)
#[global] Instance table_store_laws : UserStoreLaws table_store.
Proof.
  split. intros users email user. cbn.
  destruct email as [| | | s |]; try discriminate.
  induction users as [| u users IH]; cbn; [discriminate |].
  destruct (bool_decide (User.email u = s)) eqn:Hu.
  - intros _. apply bool_decide_eq_true in Hu.
    rewrite decide_True by congruence. cbn.
    rewrite bool_decide_eq_true_2 by assumption. eauto.
  - intros Hfind. apply bool_decide_eq_false in Hu.
    rewrite decide_False by congruence. cbn.
    rewrite bool_decide_eq_false_2 by assumption. auto.
Qed.

Section Writing.

Context {token : Type} `{!JoseJWT token} `{!JoseJWTLaws token} `{!CryptContext}.
Context {db : Type} (store : UserStore db) `{!UserStoreLaws store}.

Variable settings : Settings.

(** X13.  [register_user] refuses a taken address or a taken username
    with a 409, the address being checked first; nothing is written to
    the database, no password is hashed into it and no mail is queued. *)
Theorem register_user_conflict (salt base_url : string)
    (user_data : UserCreate.t) (background_tasks : list task) (d : db) :
  let by_email :=
    get_user_by_email (store_service store d)
      (VStr (UserCreate.email user_data)) in
  let by_username :=
    get_user_by_username (store_service store d)
      (VStr (UserCreate.username user_data)) in
  is_Some by_email \/ is_Some by_username ->
  register_user store salt user_data background_tasks base_url d
    = (Raise (match by_email with
              | Some _ => email_conflict_exception
              | None => username_conflict_exception
              end),
       background_tasks, d)
  /\ http_status email_conflict_exception = Some 409
  /\ http_status username_conflict_exception = Some 409.
Proof.
  cbv zeta. intros Htaken. unfold register_user.
  split; [| split; reflexivity].
  destruct (get_user_by_email _ _) as [u|]; [reflexivity |].
  destruct Htaken as [[u Hu] | [u Hu]]; [discriminate |].
  rewrite Hu. reflexivity.
Qed.

(** X14.  When neither the address nor the username is taken,
    [register_user] creates the user from the form with the password
    replaced by its hash, so the plain password does not reach the
    database; it returns the created user and queues one confirmation
    mail, to the created user's address. *)
Theorem register_user_created (salt base_url : string)
    (user_data : UserCreate.t) (background_tasks : list task) (d : db) :
  get_user_by_email (store_service store d)
    (VStr (UserCreate.email user_data)) = None ->
  get_user_by_username (store_service store d)
    (VStr (UserCreate.username user_data)) = None ->
  let created :=
    store_create_user store
      (UserCreate.mk (UserCreate.username user_data)
         (UserCreate.email user_data)
         (Hash.get_password_hash salt (UserCreate.password user_data))) d in
  register_user store salt user_data background_tasks base_url d
    = (Return created.1,
       (background_tasks ++
          [send_email (User.email created.1) (User.username created.1)
                      base_url])%list,
       created.2).
Proof.
  intros He Hu. cbv zeta. unfold register_user. rewrite He, Hu.
  destruct (store_create_user store _ d) as [new_user d']. reflexivity.
Qed.

(** X15.  [confirmed_email] has four outcomes and writes in one of
    them only.  It passes on whatever [get_email_from_token] raises; it
    answers 400 when no user has the address, and 400 again when the
    user is already confirmed; in these three the database is left as it
    was.  Otherwise it marks the address confirmed and acknowledges. *)
Theorem confirmed_email_outcomes (now : Z) (t : token) (d : db) :
  let out := confirmed_email store settings now t d in
  (exists e, get_email_from_token settings now t = Raise e
             /\ out = (Raise e, d))
  \/ (exists email,
        get_email_from_token settings now t = Return email
        /\ get_user_by_email (store_service store d) email = None
        /\ out = (Raise verification_error_exception, d))
  \/ (exists email user,
        get_email_from_token settings now t = Return email
        /\ get_user_by_email (store_service store d) email = Some user
        /\ truthy_bool (User.confirmed user) = true
        /\ out = (Raise already_confirmed_exception, d))
  \/ (exists email user,
        get_email_from_token settings now t = Return email
        /\ get_user_by_email (store_service store d) email = Some user
        /\ truthy_bool (User.confirmed user) = false
        /\ out = (Return email_confirmed_message,
                  store_confirmed_email store email d)).
Proof.
  cbv zeta. unfold confirmed_email.
  destruct (get_email_from_token settings now t) as [email|e];
    [| left; eauto].
  right.
  destruct (get_user_by_email (store_service store d) email) as [user|] eqn:Hu;
    [| left; eauto].
  right.
  destruct (truthy_bool (User.confirmed user)) eqn:Hc;
    [left | right]; exists email, user; auto.
Qed.

(** X16.  An email token confirms once.  With the token issued for the
    address of an unconfirmed user, [confirmed_email] within seven days
    marks the address confirmed; presenting the same token again changes
    nothing and is answered 400 while the token is good, 422 after it has
    expired. *)
Theorem confirmed_email_once (e : string) (now_exp now_iat now1 now2 : Z)
    (d : db) (user : User.t) :
  get_user_by_email (store_service store d) (VStr e) = Some user ->
  truthy_bool (User.confirmed user) = false ->
  now1 <= now_exp + 604800 ->
  let t := create_email_token settings now_exp now_iat {[ "sub" := VStr e ]} in
  let out1 := confirmed_email store settings now1 t d in
  let out2 := confirmed_email store settings now2 t out1.2 in
  out1 = (Return email_confirmed_message,
          store_confirmed_email store (VStr e) d)
  /\ out2 = (Raise (if (now2 <=? now_exp + 604800)%Z
                    then already_confirmed_exception
                    else email_token_exception),
             out1.2).
Proof.
  intros Hu Hc Hle. cbv zeta.
  assert (Hget : forall now, now <= now_exp + 604800 ->
            get_email_from_token settings now
              (create_email_token settings now_exp now_iat {[ "sub" := VStr e ]})
            = Return (VStr e)).
  { intros now Hnow. eapply get_email_from_token_subject.
    - apply decode_email_token; [apply issued_claims_subject | lia].
    - rewrite issued_sub, lookup_insert_ne by discriminate.
      apply lookup_singleton_eq. }
  assert (H1 : confirmed_email store settings now1
                 (create_email_token settings now_exp now_iat
                    {[ "sub" := VStr e ]}) d
               = (Return email_confirmed_message,
                  store_confirmed_email store (VStr e) d)).
  { unfold confirmed_email. rewrite Hget by assumption.
    rewrite Hu, Hc. reflexivity. }
  split; [exact H1 |]. rewrite H1. cbn [snd].
  unfold confirmed_email.
  destruct (Z.leb_spec now2 (now_exp + 604800)) as [Hin | Hout].
  - rewrite Hget by assumption.
    destruct (store_confirmed_email_lookup d (VStr e) user Hu)
      as (user' & -> & Hc').
    rewrite Hc'. reflexivity.
  - unfold get_email_from_token, jwt_decode_r.
    rewrite decode_email_token_expired
      by (apply issued_claims_subject || lia).
    reflexivity.
Qed.

End Writing.

(** * The migration *)

(** X17.  On a schema whose [users] table has no [confirmed] column,
    [upgrade] adds it as a nullable Boolean and touches nothing else,
    [downgrade] after it gives the schema back, and a second [upgrade]
    fails on the column it finds. *)
Theorem upgrade_downgrade (schema : gmap string (gmap string Column))
    (columns : gmap string Column) :
  schema !! "users" = Some columns ->
  columns !! "confirmed" = None ->
  exists upgraded,
    upgrade schema = inr upgraded
    /\ upgraded !! "users" =
         Some (<["confirmed" := {| column_type := Boolean; nullable := true |}]>
                 columns)
    /\ (forall table, table <> "users" -> upgraded !! table = schema !! table)
    /\ downgrade upgraded = inr schema
    /\ upgrade upgraded = inl (DuplicateColumn "users" "confirmed").
Proof.
  intros Ht Hc. unfold upgrade, downgrade, op_add_column, op_drop_column.
  rewrite Ht, Hc. eexists. split; [reflexivity |].
  split; [apply lookup_insert_eq |]. split.
  - intros table Hne. apply lookup_insert_ne. congruence.
  - rewrite !lookup_insert_eq. split; [| reflexivity].
    f_equal. rewrite insert_insert_eq, delete_insert_id by assumption.
    apply insert_id. assumption.
Qed.

(** ** The further properties at concrete inputs *)

Lemma email_token_round_trip_witness :
  100 <= 0 + 604800
  /\ get_email_from_token sample_settings 100
       (create_email_token sample_settings 0 0 {[ "sub" := VStr "bob@x.com" ]})
     = Return (VStr "bob@x.com").
Proof.
  assert (H : 100 <= 0 + 604800) by lia.
  split; [exact H |].
  exact (proj1 (email_token_round_trip sample_settings "bob@x.com" 0 0 100 H)).
Defined.

Lemma access_token_expires_witness :
  issued_claims {[ "sub" := VStr "alice" ]}
  /\ 0 + lifetime sample_settings None < 3601
  /\ get_current_user sample_settings 3601
       (create_access_token sample_settings 0 {[ "sub" := VStr "alice" ]} None)
       sample_users
     = Raise credentials_exception.
Proof.
  assert (Hc : issued_claims {[ "sub" := VStr "alice" ]})
    by apply issued_claims_subject.
  assert (Hlt : 0 + lifetime sample_settings None < 3601) by (cbn; lia).
  split; [exact Hc |]. split; [exact Hlt |].
  exact (access_token_expires sample_settings 0 3601 _ None sample_users Hc Hlt).
Defined.

Lemma email_token_expires_witness :
  issued_claims {[ "sub" := VStr "bob@x.com" ]}
  /\ 0 + 604800 < 604801
  /\ get_email_from_token sample_settings 604801
       (create_email_token sample_settings 0 0 {[ "sub" := VStr "bob@x.com" ]})
     = Raise email_token_exception.
Proof.
  assert (Hc : issued_claims {[ "sub" := VStr "bob@x.com" ]})
    by apply issued_claims_subject.
  assert (Hlt : 0 + 604800 < 604801) by lia.
  split; [exact Hc |]. split; [exact Hlt |].
  exact (email_token_expires sample_settings 0 0 604801 _ Hc Hlt).
Defined.

Lemma negative_expires_delta_expired_witness :
  issued_claims {[ "sub" := VStr "alice" ]}
  /\ -5 < 0
  /\ get_current_user sample_settings 50
       (create_access_token sample_settings 50 {[ "sub" := VStr "alice" ]}
          (Some (-5)))
       sample_users
     = Raise credentials_exception.
Proof.
  assert (Hc : issued_claims {[ "sub" := VStr "alice" ]})
    by apply issued_claims_subject.
  assert (Hneg : -5 < 0) by lia.
  split; [exact Hc |]. split; [exact Hneg |].
  exact (proj2 (negative_expires_delta_expired sample_settings 50 (-5) _
                  sample_users Hc Hneg)).
Defined.

Lemma get_email_from_token_missing_sub_witness :
  get_email_from_token sample_settings 100
    (create_access_token sample_settings 0 ∅ None)
  = Raise (KeyError "sub").
Proof.
  refine (proj1 (get_email_from_token_missing_sub sample_settings 100
                   (create_access_token sample_settings 0 ∅ None)
                   _ eq_refl _)).
  reflexivity.
Defined.


Lemma login_user_unidentified_hash_witness :
  ctx_identify (User.hashed_password dave) = false
  /\ login_user sample_settings ref_dumps 5
       (OAuth2PasswordRequestForm.mk "dave" "hunter2")
       (table_service [alice; dave]) ∅
     = (Raise UnknownHashError, ∅).
Proof.
  split; [reflexivity |].
  exact (proj1 (login_user_unidentified_hash sample_settings ref_dumps 5
                  (OAuth2PasswordRequestForm.mk "dave" "hunter2")
                  (table_service [alice; dave]) ∅ dave eq_refl eq_refl)).
Defined.

Lemma login_then_get_current_user_witness :
  get_current_user sample_settings 100
    (create_access_token sample_settings 5 {[ "sub" := VStr "alice" ]} None)
    sample_users
  = Return alice.
Proof.
  assert (Hlogin :
            (login_user sample_settings ref_dumps 5
               (OAuth2PasswordRequestForm.mk "alice" "pw123") sample_users ∅).1
            = Return {| access_token :=
                          create_access_token sample_settings 5
                            {[ "sub" := VStr "alice" ]} None;
                        token_type := "bearer" |})
    by (vm_compute; reflexivity).
  assert (Hle : 100 <= 5 + JWT_EXPIRATION_SECONDS sample_settings)
    by (cbn; lia).
  destruct (login_then_get_current_user sample_settings ref_dumps 5 100
              (OAuth2PasswordRequestForm.mk "alice" "pw123") sample_users ∅
              _ Hlogin Hle)
    as (user & Hu & _ & Hself).
  cbn in Hu. injection Hu as <-.
  apply Hself. reflexivity.
Defined.

Lemma request_email_unknown_address_witness :
  get_user_by_email sample_users (VStr "nobody@x.com") = None
  /\ request_email "nobody@x.com" [] "http://testserver/" sample_users
     = (Raise (AttributeError "'NoneType' object has no attribute 'confirmed'"),
        []).
Proof.
  split; [reflexivity |].
  exact (proj1 (request_email_unknown_address "nobody@x.com"
                  "http://testserver/" [] sample_users eq_refl)).
Defined.

(** A form with alice's address, and a form with a new address under
    bob's name. *)
Lemma register_user_conflict_witness :
  register_user table_store "saltsaltsaltsaltsaltsa"
    (UserCreate.mk "al" "alice@x.com" "pw") [] "http://testserver/" sample_table
  = (Raise email_conflict_exception, [], sample_table)
  /\ register_user table_store "saltsaltsaltsaltsaltsa"
       (UserCreate.mk "bob" "robert@x.com" "pw") [] "http://testserver/"
       sample_table
     = (Raise username_conflict_exception, [], sample_table).
Proof.
  split.
  - exact (proj1 (register_user_conflict table_store "saltsaltsaltsaltsaltsa"
                    "http://testserver/" (UserCreate.mk "al" "alice@x.com" "pw")
                    [] sample_table
                    (or_introl (ex_intro _ alice eq_refl)))).
  - exact (proj1 (register_user_conflict table_store "saltsaltsaltsaltsaltsa"
                    "http://testserver/" (UserCreate.mk "bob" "robert@x.com" "pw")
                    [] sample_table
                    (or_intror (ex_intro _ bob eq_refl)))).
Defined.

Lemma register_user_created_witness :
  let erin :=
    User.mk 4 "erin" "erin@x.com"
      (ref_hash "saltsaltsaltsaltsaltsa" "correct horse") (Some false) None in
  register_user table_store "saltsaltsaltsaltsaltsa" erin_form []
    "http://testserver/" sample_table
  = (Return erin, [send_email "erin@x.com" "erin" "http://testserver/"],
     [alice; bob; carol; erin]).
Proof.
  exact (register_user_created table_store "saltsaltsaltsaltsaltsa"
           "http://testserver/" erin_form [] sample_table eq_refl eq_refl).
Defined.

(** Bob confirms his address, then follows the link again. *)
Lemma confirmed_email_once_witness :
  let t :=
    create_email_token sample_settings 0 0 {[ "sub" := VStr "bob@x.com" ]} in
  let confirmed_bob :=
    User.mk 2 "bob" "bob@x.com" (User.hashed_password bob) (Some true) None in
  confirmed_email table_store sample_settings 100 t sample_table
    = (Return email_confirmed_message, [alice; confirmed_bob; carol])
  /\ confirmed_email table_store sample_settings 200 t
       [alice; confirmed_bob; carol]
     = (Raise already_confirmed_exception, [alice; confirmed_bob; carol]).
Proof.
  cbv zeta.
  destruct (confirmed_email_once table_store sample_settings "bob@x.com"
              0 0 100 200 sample_table bob eq_refl eq_refl ltac:(lia))
    as [H1 H2].
  split; [exact H1 |]. exact H2.
Defined.

Lemma upgrade_downgrade_witness :
  exists upgraded,
    upgrade sample_schema = inr upgraded
    /\ downgrade upgraded = inr sample_schema
    /\ upgraded !! "contacts" = sample_schema !! "contacts".
Proof.
  destruct (upgrade_downgrade sample_schema
              {[ "id" := {| column_type := OtherType "Integer"; nullable := false |};
                 "username" :=
                   {| column_type := OtherType "String"; nullable := true |} ]}
              eq_refl eq_refl)
    as (upgraded & Hup & _ & Hframe & Hdown & _).
  exists upgraded. split; [exact Hup |]. split; [exact Hdown |].
  apply Hframe. discriminate.
Defined.
